(** * The MCCCS-MN workflow of the reproducibility study

    A shallow embedding of [src/engines/mcccs/project.py]: the signac-flow
    labels (readiness and completion predicates), the replicate counters,
    the template resolver and the four stage runners, followed by the
    properties of them that the specification states.

    Conventions of the embedding.
    - A job is a record: its id, its immutable state point, its workspace
      directory (a finite map from file names to file contents) and its
      persisted document.
    - Python code that mutates the job or raises is written in the monad
      [op]: a state transformer over [Job] whose state survives an
      exception, as the workspace and the document do on disk.
    - The simulation binary and the molecule libraries are not part of the
      repository; they are variables of the sections that use them. *)

From stdpp Require Import gmap strings list fin_maps pretty.
From Stdlib Require Import Floats.

Set Warnings "-inexact-float".
Open Scope string_scope.

(** ** Python strings *)

Module Py.

(** [needle in hay] on [str]: substring containment. *)
Fixpoint contains (needle hay : string) : bool :=
  String.prefix needle hay ||
  match hay with
  | EmptyString => false
  | String _ t => contains needle t
  end.

(** [s.replace(old, new)] for a non-empty [old]: occurrences are replaced
    from left to right and do not overlap. [skip] counts the characters of
    an occurrence that is being consumed. *)
Fixpoint replace_go (old new : string) (skip : nat) (s : string) : string :=
  match s with
  | EmptyString => EmptyString
  | String c t =>
      match skip with
      | S k => replace_go old new k t
      | O =>
          if String.prefix old s
          then new +:+ replace_go old new (String.length old - 1) t
          else String c (replace_go old new 0 t)
      end
  end.

Definition replace (old new s : string) : string := replace_go old new 0 s.

Definition newline : Ascii.ascii := Ascii.ascii_of_nat 10.

(** Iterating over a text file yields its lines, each with its terminating
    newline kept; the last line may lack one. *)
Fixpoint lines (s : string) : list string :=
  match s with
  | EmptyString => []
  | String c t =>
      if Ascii.eqb c newline then String c EmptyString :: lines t
      else match lines t with
           | [] => [String c EmptyString]
           | l :: ls => String c l :: ls
           end
  end.

Definition concat (ls : list string) : string :=
  foldr String.append EmptyString ls.

(** [str(n)] for an [int]. *)
Definition str_int (n : Z) : string := pretty n.

(** The exceptions the module can raise. [Exception] is the only one raised
    by a [raise] statement of the module itself; the others come from the
    interpreter and the standard library. *)
Inductive exn : Type :=
| Exception (msg : string)
| KeyError (key : string)
| AttributeError (obj attr : string)
| FileNotFoundError (path : string)
| SameFileError (path : string)
| IndexError
| ExternalError (msg : string).

Definition raised_explicitly (e : exn) : bool :=
  match e with Exception _ => true | _ => false end.

(** The text an exception carries ([str(e)]). *)
Definition message (e : exn) : string :=
  match e with
  | Exception msg => msg
  | KeyError key => "'" +:+ key +:+ "'"
  | AttributeError obj attr =>
      "'" +:+ obj +:+ "' object has no attribute '" +:+ attr +:+ "'"
  | FileNotFoundError path =>
      "[Errno 2] No such file or directory: '" +:+ path +:+ "'"
  | SameFileError path => "'" +:+ path +:+ "' and '" +:+ path +:+ "' are the same file"
  | IndexError => "list index out of range"
  | ExternalError msg => msg
  end.

(** What a predicate returns: a function that falls off its end returns
    [None]. *)
Inductive value : Type :=
| PyNone
| PyBool (b : bool).

(** [bool(v)], the way conditions and labels are read. *)
Definition truthy (v : value) : bool :=
  match v with
  | PyNone => false
  | PyBool b => b
  end.

End Py.

Import Py.

(** ** Jobs *)

Record StatePoint : Type := mkStatePoint {
  engine : string;
  molecule : string;
  ensemble : string;
  forcefield_name : string;
  replica : Z;
  N_liquid : Z;
  box_L_liq : float;
  temperature : float;
  pressure : float
}.

(** [job.doc]: every field is unset until an operation assigns it. *)
Record Document : Type := mkDocument {
  doc_files_ready : option bool;
  doc_equil_replicates_done : option Z;
  doc_num_prod_replicates : option Z;
  doc_prod_replicates_done : option Z
}.

Definition empty_doc : Document := mkDocument None None None None.

Record Job : Type := mkJob {
  id : string;
  sp : StatePoint;
  ws : gmap string string;
  doc : Document
}.

Definition set_ws (f : gmap string string → gmap string string) (j : Job) : Job :=
  mkJob (id j) (sp j) (f (ws j)) (doc j).

Definition set_doc (f : Document → Document) (j : Job) : Job :=
  mkJob (id j) (sp j) (ws j) (f (doc j)).

Definition with_files_ready (b : bool) (d : Document) : Document :=
  mkDocument (Some b) (doc_equil_replicates_done d)
    (doc_num_prod_replicates d) (doc_prod_replicates_done d).

Definition with_equil_replicates_done (n : Z) (d : Document) : Document :=
  mkDocument (doc_files_ready d) (Some n)
    (doc_num_prod_replicates d) (doc_prod_replicates_done d).

Definition with_num_prod_replicates (n : Z) (d : Document) : Document :=
  mkDocument (doc_files_ready d) (doc_equil_replicates_done d)
    (Some n) (doc_prod_replicates_done d).

Definition with_prod_replicates_done (n : Z) (d : Document) : Document :=
  mkDocument (doc_files_ready d) (doc_equil_replicates_done d)
    (doc_num_prod_replicates d) (Some n).

(** ** Operations: state and exceptions *)

Inductive outcome (A : Type) : Type :=
| Returns (a : A)
| Raises (e : exn).
Arguments Returns {A} a.
Arguments Raises {A} e.

Definition op (A : Type) : Type := Job → Job * outcome A.

Definition ret {A} (a : A) : op A := λ j, (j, Returns a).
Definition raise {A} (e : exn) : op A := λ j, (j, Raises e).
Definition bind {A B} (m : op A) (k : A → op B) : op B :=
  λ j, match m j with
       | (j', Returns a) => k a j'
       | (j', Raises e) => (j', Raises e)
       end.

Notation "x <- m ;; k" := (bind m (λ x, k))
  (at level 100, m at next level, right associativity, only parsing).
Notation "m ;; k" := (bind m (λ _, k))
  (at level 100, right associativity, only parsing).

Definition get : op Job := λ j, (j, Returns j).
Definition modify (f : Job → Job) : op unit := λ j, (f j, Returns tt).

(** [for x in xs: body(x)] *)
Fixpoint for_each {A} (xs : list A) (body : A → op unit) : op unit :=
  match xs with
  | [] => ret tt
  | x :: rest => body x ;; for_each rest body
  end.

(** A [for] loop that updates a local variable. *)
Fixpoint for_fold {A S} (xs : list A) (s : S) (body : A → S → op S) : op S :=
  match xs with
  | [] => ret s
  | x :: rest => s' <- body x s ;; for_fold rest s' body
  end.

(** [try: body except (AttributeError, KeyError): handler] *)
Definition try_except_attr_key {A} (body handler : op A) : op A :=
  λ j, match body j with
       | (j', Raises (AttributeError _ _)) | (j', Raises (KeyError _)) => handler j'
       | r => r
       end.

(** [try: body except AttributeError: handler] *)
Definition try_except_attr {A} (body handler : op A) : op A :=
  λ j, match body j with
       | (j', Raises (AttributeError _ _)) => handler j'
       | r => r
       end.

(** Reading an attribute of [job.doc] that is unset raises
    [AttributeError]. *)
Definition doc_attr {A} (name : string) (field : Document → option A) : op A :=
  λ j, match field (doc j) with
       | Some a => (j, Returns a)
       | None => (j, Raises (AttributeError "JSONAttrDict" name))
       end.

(** ** The workspace: [job.isfile], [open], [shutil] *)

Definition isfile (name : string) : op bool :=
  λ j, (j, Returns (bool_decide (is_Some (ws j !! name)))).

(** [open(name).read()] *)
Definition read_file (name : string) : op string :=
  λ j, match ws j !! name with
       | Some content => (j, Returns content)
       | None => (j, Raises (FileNotFoundError name))
       end.

Definition write_file (name content : string) : op unit :=
  modify (set_ws (insert name content)).

(** [shutil.copyfile(src, dst)] and [shutil.copy(src, dst)] onto a file
    name: the contents of [src] replace those of [dst]. *)
Definition copyfile (src dst : string) : op unit :=
  λ j, match ws j !! src with
       | None => (j, Raises (FileNotFoundError src))
       | Some content =>
           if decide (src = dst) then (j, Raises (SameFileError src))
           else (set_ws (insert dst content) j, Returns tt)
       end.

(** [shutil.move(src, dst)] onto a file name: a rename, which replaces an
    existing [dst]. *)
Definition move (src dst : string) : op unit :=
  λ j, match ws j !! src with
       | None => (j, Raises (FileNotFoundError src))
       | Some content =>
           (set_ws (λ fs, <[dst := content]> (delete src fs)) j, Returns tt)
       end.

(** ** Progress labels *)

Definition file_names : list string := ["melt"; "cool"; "equil"; "prod"].

Definition has_fort_files : op value :=
  melt <- isfile "fort.4.melt" ;;
  cool <- isfile "fort.4.cool" ;;
  equil <- isfile "fort.4.equil" ;;
  prod <- isfile "fort.4.prod" ;;
  ret (PyBool (melt && cool && equil && prod)).

(** The tokens [files_ready] looks for. *)
Definition ready_keywords : list string :=
  ["NCHAIN"; "LENGTH"; "TEMPERATURE"; "PRESSURE"; "VARIABLES"].

(** The inner loop of [files_ready], over the keywords in order: one read
    of the file per keyword, the counter [c] going up by one for each
    keyword found. *)
Definition count_keywords (file_name : string) (c : nat) : op nat :=
  for_fold ready_keywords c (λ keyword c,
    content <- read_file file_name ;;
    if contains keyword content then ret (S c) else ret c).

Definition files_ready : op value :=
  modify (set_doc (with_files_ready false)) ;;
  c <- for_fold file_names 0 (λ name c,
         present <- isfile ("fort.4." +:+ name) ;;
         if negb present then ret c
         else count_keywords ("fort.4." +:+ name) c) ;;
  (if decide (c = 0) then modify (set_doc (with_files_ready true)) else ret tt) ;;
  r <- doc_attr "files_ready" doc_files_ready ;;
  ret (PyBool r).

Definition has_restart_file : op value :=
  b <- isfile "fort.77" ;; ret (PyBool b).

Definition has_topmon : op value :=
  b <- isfile "topmon.inp" ;; ret (PyBool b).

Definition equil_replicate_set : op value :=
  try_except_attr
    (n <- doc_attr "equil_replicates_done" doc_equil_replicates_done ;;
     ret (PyBool (bool_decide (n = 0%Z))))
    (ret (PyBool false)).

Definition replicate_set : op value :=
  try_except_attr
    (n <- doc_attr "num_prod_replicates" doc_num_prod_replicates ;;
     ret (PyBool (bool_decide (n = 4%Z))))
    (ret (PyBool false)).

Definition all_prod_replicates_done : op value :=
  try_except_attr_key
    (a <- doc_attr "prod_replicates_done" doc_prod_replicates_done ;;
     b <- doc_attr "num_prod_replicates" doc_num_prod_replicates ;;
     ret (PyBool (bool_decide (b ≤ a)%Z)))
    (ret (PyBool false)).

Definition marker : string := "Program ended".

(** The body shared by the four completion predicates once [step] is
    known. When the log is absent the function ends without a [return]. *)
Definition log_finished (step : string) : op value :=
  present <- isfile ("run." +:+ step) ;;
  if present then
    content <- read_file ("run." +:+ step) ;;
    if contains marker content then ret (PyBool true) else ret (PyBool false)
  else ret PyNone.

Definition melt_finished : op value := log_finished "melt".
Definition cool_finished : op value := log_finished "cool".
Definition equil_finished : op value := log_finished "equil".

Definition prod_finished : op value :=
  step <- try_except_attr_key
            (n <- doc_attr "prod_replicates_done" doc_prod_replicates_done ;;
             ret ("prod" +:+ str_int n))
            (ret ("prod" +:+ "0")) ;;
  log_finished step.

(** ** Workflow operations *)

Definition set_equil_replicates : op unit :=
  modify (set_doc (with_equil_replicates_done 0)).

Definition set_prod_replicates : op unit :=
  modify (set_doc (with_num_prod_replicates 4)) ;;
  modify (set_doc (with_prod_replicates_done 0)).

(** ** The template resolver *)

Inductive number : Type :=
| Int (z : Z)
| Float (f : float).

Definition resolver_keywords : list string :=
  ["NCHAIN"; "LENGTH"; "TEMPERATURE"; "PRESSURE"; "SEED"].

(** The values substituted for the keywords, in the order of the keywords.
    The state point gives lengths in nm and pressures in kPa; the integer
    factors are converted to floats by the arithmetic. *)
Definition variables (s : StatePoint) : list number :=
  [Int (N_liquid s);
   Float (box_L_liq s * 10)%float;
   Float (temperature s);
   Float (pressure s / 1000)%float;
   Int (replica s)].

Section Resolver.

(** [str(x)] for a [float] is the interpreter's. *)
Variable float_repr : float → string.

Definition str (x : number) : string :=
  match x with
  | Int z => str_int z
  | Float f => float_repr f
  end.

(** One pass of [fileinput.FileInput(file_name, inplace=True)]: every line
    is printed back with the keyword replaced. *)
Definition rewrite_lines (file_name keyword text : string) : op unit :=
  content <- read_file file_name ;;
  write_file file_name (concat (map (replace keyword text) (lines content))).

Definition replace_keyword_fort_files : op unit :=
  j <- get ;;
  let vars := variables (sp j) in
  for_each file_names (λ name,
    for_each (seq 0 (length vars)) (λ i,
      match resolver_keywords !! i, vars !! i with
      | Some keyword, Some v => rewrite_lines ("fort.4." +:+ name) keyword (str v)
      | _, _ => raise IndexError
      end)).

End Resolver.

(** ** The stage runners *)

Section Engine.

(** The simulation binary, run in the workspace: it reads [fort.4] and the
    restart file and leaves its output files there. Whatever it does, it
    does to the files of the workspace; [Popen] with [shell=True] does not
    raise when the binary fails. *)
Variable topmon : gmap string string → gmap string string.

Definition communicate : op unit := modify (set_ws topmon).

(** The body shared by the four runners, run inside the workspace
    ([os.chdir(job.ws)]): [template] names the input file, [step] qualifies
    the outputs. What is printed is not modelled. *)
Definition simulate (template step : string) : op unit :=
  copyfile ("fort.4." +:+ template) "fort.4" ;;
  communicate ;;
  move "fort.12" ("fort.12." +:+ step) ;;
  move "box1config1a.xyz" ("box1config1a.xyz." +:+ step) ;;
  move "run1a.dat" ("run." +:+ step) ;;
  copyfile "config1a.dat" "fort.77" ;;
  move "config1a.dat" ("config1a.dat." +:+ step) ;;
  move "box1movie1a.pdb" ("box1movie1a.pdb." +:+ step) ;;
  move "box1movie1a.xyz" ("box1movie1a.xyz." +:+ step).

Definition run_melt : op unit := simulate "melt" "melt".
Definition run_cool : op unit := simulate "cool" "cool".
Definition run_equil : op unit := simulate "equil" "equil".

Definition run_prod : op unit :=
  n <- doc_attr "prod_replicates_done" doc_prod_replicates_done ;;
  modify (set_doc (with_prod_replicates_done (n + 1))) ;;
  replicate <- doc_attr "prod_replicates_done" doc_prod_replicates_done ;;
  simulate "prod" ("prod" +:+ str_int replicate) ;;
  _ <- all_prod_replicates_done ;;
  _ <- prod_finished ;;
  ret tt.

End Engine.

(** ** Molecules and systems *)

Inductive compound : Type :=
| MethaneUA
| PentaneUA
| WaterSPC.

(** The dictionary [get_molecules] builds on every call. Its three
    constructor calls are taken to return; [None] stands for the two
    molecules that are named but not built. *)
Definition molecule_dict : gmap string (option compound) :=
  <["methaneUA" := Some MethaneUA]>
  (<["pentaneUA" := Some PentaneUA]>
  (<["benzeneUA" := None]>
  (<["waterSPC/E" := Some WaterSPC]>
  (<["ethanolAA" := None]> ∅)))).

Definition get_molecules : op (list (option compound)) :=
  j <- get ;;
  match molecule_dict !! molecule (sp j) with
  | Some m => ret [m]
  | None => raise (KeyError (molecule (sp j)))
  end.

(** What [get_system] calls outside the repository: the system builder,
    the force-field library and the constraint solver. *)
Record Libraries : Type := mkLibraries {
  system : Type;
  parmed : Type;
  forcefield : Type;
  typed : Type;
  construct_system : StatePoint → outcome system;
  to_parmed : compound → outcome parmed;
  Forcefield : string → outcome forcefield;
  apply_forcefield : forcefield → parmed → outcome typed;
  constrain : typed → system → outcome system
}.

Definition call {A} (r : outcome A) : op A := λ j, (j, r).

Section System.

Variable L : Libraries.

Definition get_system : op (system L) :=
  j <- get ;;
  _ <- call (construct_system L (sp j)) ;;
  molecules <- get_molecules ;;
  molecule <- match molecules !! 0%nat with
              | Some m => ret m
              | None => raise IndexError
              end ;;
  sys <- call (construct_system L (sp j)) ;;
  parmed_molecule <- match molecule with
                     | Some m => call (to_parmed L m)
                     | None => raise (AttributeError "NoneType" "to_parmed")
                     end ;;
  ff <- (if decide (forcefield_name (sp j) = "trappe-ua")
         then call (Forcefield L "trappe-ua")
         else if decide (forcefield_name (sp j) = "oplsaa")
         then call (Forcefield L "oplsaa")
         else if decide (forcefield_name (sp j) = "spce")
         then call (Forcefield L "spce")
         else raise (Exception
                ("No forcefield has been applied to this system " +:+ id j))) ;;
  typed_molecule <- call (apply_forcefield L ff parmed_molecule) ;;
  call (constrain L typed_molecule sys).

End System.

(** ** The workflow

    signac-flow runs an operation on a job when all of its preconditions
    hold and its postconditions do not all hold. Conditions are read as
    booleans. *)

Definition holds (condition : op value) (j : Job) : bool :=
  match snd (condition j) with
  | Returns v => truthy v
  | Raises _ => false
  end.

(** The [lambda] every operation has as its first precondition. *)
Definition selected (j : Job) : bool :=
  bool_decide (engine (sp j) = "mcccs" ∧ molecule (sp j) = "pentaneUA" ∧
               ensemble (sp j) = "NPT").

(** The operations that are modelled in full. *)
Inductive operation : Type :=
| Set_equil_replicates
| Set_prod_replicates
| Replace_keyword_fort_files
| Run_melt
| Run_cool
| Run_equil
| Run_prod.

(** The remaining operations take what they write from outside the
    workspace: [copy_files] copies the files [fort.4.*] of the project's
    input directory, [copy_topmon] copies [topmon.inp], [make_restart_file]
    has an external writer produce [fort.77] and [initial_structure.xyz],
    and [copy_fort77maker] writes outside the workspace. What they can do
    to a job is to write files of these names. *)
Definition provided (name : string) : Prop :=
  String.prefix "fort.4." name = true ∨
  name ∈ ["topmon.inp"; "fort.77"; "initial_structure.xyz"].

Section Workflow.

Variable topmon : gmap string string → gmap string string.
Variable float_repr : float → string.

(** [run_equil] names a postcondition [system_equilibrated] that the module
    neither defines nor imports. *)
Variable system_equilibrated : Job → bool.

Definition preconditions (o : operation) : list (Job → bool) :=
  match o with
  | Set_equil_replicates | Set_prod_replicates => [selected]
  | Replace_keyword_fort_files => [selected; holds has_fort_files]
  | Run_melt =>
      [selected; holds has_restart_file; holds has_fort_files;
       holds has_topmon; holds files_ready]
  | Run_cool => [selected; holds has_restart_file; holds melt_finished]
  | Run_equil => [selected; holds has_restart_file; holds cool_finished]
  | Run_prod => [selected; holds has_restart_file; holds equil_finished]
  end.

Definition postconditions (o : operation) : list (Job → bool) :=
  match o with
  | Set_equil_replicates => [holds equil_replicate_set]
  | Set_prod_replicates => [holds replicate_set]
  | Replace_keyword_fort_files => [holds files_ready]
  | Run_melt => [holds melt_finished]
  | Run_cool => [holds cool_finished]
  | Run_equil => [holds equil_finished; system_equilibrated]
  | Run_prod => [holds prod_finished; holds all_prod_replicates_done]
  end.

Definition body (o : operation) : op unit :=
  match o with
  | Set_equil_replicates => set_equil_replicates
  | Set_prod_replicates => set_prod_replicates
  | Replace_keyword_fort_files => replace_keyword_fort_files float_repr
  | Run_melt => run_melt topmon
  | Run_cool => run_cool topmon
  | Run_equil => run_equil topmon
  | Run_prod => run_prod topmon
  end.

Definition eligible (o : operation) (j : Job) : bool :=
  forallb (λ condition, condition j) (preconditions o) &&
  negb (forallb (λ condition, condition j) (postconditions o)).

(** One move of the workflow: an eligible operation is run, and what it
    did to the job stays whether it returned or raised; or the label
    [files_ready] is evaluated, which writes to the document; or one of the
    copying operations writes a file. *)
Inductive step : Job → Job → Prop :=
| step_operation (o : operation) (j : Job) :
    eligible o j = true → step j (fst (body o j))
| step_files_ready (j : Job) :
    step j (fst (files_ready j))
| step_provide (name content : string) (j : Job) :
    provided name → step j (set_ws (insert name content) j).

(** Running a list of operations in order, each one only if eligible. *)
Fixpoint schedule (os : list operation) (j : Job) : option Job :=
  match os with
  | [] => Some j
  | o :: rest =>
      if eligible o j then schedule rest (fst (body o j)) else None
  end.

End Workflow.

(** The jobs a job with an empty document can become. *)
Definition reachable topmon float_repr system_equilibrated (j0 j : Job) : Prop :=
  doc j0 = empty_doc ∧ rtc (step topmon float_repr system_equilibrated) j0 j.

(** A binary whose log always ends with the marker. *)
Definition logs_end (topmon : gmap string string → gmap string string) : Prop :=
  ∀ fs content, topmon fs !! "run1a.dat" = Some content →
                contains marker content = true.

(** [prod_replicates_done <= num_prod_replicates], once both are set. *)
Definition counters_bounded (j : Job) : Prop :=
  ∀ a b, doc_prod_replicates_done (doc j) = Some a →
         doc_num_prod_replicates (doc j) = Some b → (a ≤ b)%Z.

(** ** Frame conditions on operations *)

(** Operations that leave the document alone, whether they return or
    raise. *)
Definition keeps_doc {A} (m : op A) : Prop := ∀ j, doc (fst (m j)) = doc j.

(** Operations that leave a file of the workspace as it is, whether they
    return or raise. *)
Definition untouched {A} (name : string) (m : op A) : Prop :=
  ∀ j, ws (fst (m j)) !! name = ws j !! name.

(** Operations that do not remove a file. *)
Definition keeps_present {A} (name : string) (m : op A) : Prop :=
  ∀ j, is_Some (ws j !! name) → is_Some (ws (fst (m j)) !! name).

(** The logs of the three stages before production. *)
Definition stage_logs : list string := ["run.melt"; "run.cool"; "run.equil"].

(** A job that has the log of a stage also has its production template: so
    it is for a job with an empty workspace, and for one that has the
    template. *)
Definition well_provisioned (j : Job) : Prop :=
  (∃ log, log ∈ stage_logs ∧ is_Some (ws j !! log)) →
  is_Some (ws j !! "fort.4.prod").

(** What the workflow maintains when every run of the binary completes:
    the job stays well provisioned; the counters are unset together or
    stand at [a] of 4 with [0 <= a <= 4]; and once the counter is at 4 the
    log of the fourth replicate holds the marker. *)
Definition workflow_invariant (j : Job) : Prop :=
  well_provisioned j ∧
  match doc_prod_replicates_done (doc j), doc_num_prod_replicates (doc j) with
  | None, None => True
  | Some a, Some b =>
      b = 4%Z ∧ (0 ≤ a ≤ 4)%Z ∧
      (a = 4%Z → ∃ content, ws j !! "run.prod4" = Some content ∧
                            contains marker content = true)
  | _, _ => False
  end.

(** ** Notions used to state the properties *)

Inductive stage : Type := Melt | Cool | Equil | Prod.


(** The name that qualifies the files of a stage. For production it ends
    in the replicate the counter stands at, [0] when the counter is unset. *)
Definition step_name (s : stage) (j : Job) : string :=
  match s with
  | Melt => "melt"
  | Cool => "cool"
  | Equil => "equil"
  | Prod =>
      "prod" +:+ match doc_prod_replicates_done (doc j) with
                 | Some n => str_int n
                 | None => "0"
                 end
  end.

(** The run log a completion predicate looks at. *)
Definition run_log (s : stage) (j : Job) : string := "run." +:+ step_name s j.

Definition runner (topmon : gmap string string → gmap string string)
    (s : stage) : op unit :=
  match s with
  | Melt => run_melt topmon
  | Cool => run_cool topmon
  | Equil => run_equil topmon
  | Prod => run_prod topmon
  end.

(** The files the binary leaves in the workspace. *)
Definition engine_outputs : list string :=
  ["fort.12"; "box1config1a.xyz"; "run1a.dat"; "config1a.dat";
   "box1movie1a.pdb"; "box1movie1a.xyz"].

(** The names a runner gives them. *)
Definition artifacts (step : string) : list string :=
  ["fort.12." +:+ step; "box1config1a.xyz." +:+ step; "run." +:+ step;
   "config1a.dat." +:+ step; "box1movie1a.pdb." +:+ step;
   "box1movie1a.xyz." +:+ step].

(** A binary that leaves all of its output files, *)
Definition completes (topmon : gmap string string → gmap string string) : Prop :=
  ∀ fs name, name ∈ engine_outputs → is_Some (topmon fs !! name).

(** and one that touches no other file. *)
Definition keeps_other_files
    (topmon : gmap string string → gmap string string) : Prop :=
  ∀ fs name, name ∉ engine_outputs → topmon fs !! name = fs !! name.

(** The number of [files_ready]'s keywords that occur in a text. *)
Definition leftover (content : string) : nat :=
  length (filter (λ keyword, contains keyword content = true) ready_keywords).

(** The count [files_ready] arrives at over the templates [names]. *)
Definition leftovers (fs : gmap string string) (names : list string) : nat :=
  foldr (λ name acc,
           match fs !! ("fort.4." +:+ name) with
           | Some content => leftover content + acc
           | None => acc
           end) 0 names.


Definition all_templates_present (j : Job) : Prop :=
  ∀ name, name ∈ file_names → is_Some (ws j !! ("fort.4." +:+ name)).

(** The names [molecule_dict] has an entry for. *)
Definition molecule_names : list string :=
  ["methaneUA"; "pentaneUA"; "benzeneUA"; "waterSPC/E"; "ethanolAA"].

(** The force fields [get_system] knows. *)
Definition forcefield_names : list string := ["trappe-ua"; "oplsaa"; "spce"].

(** ** Example data *)

Module Examples.

Definition pentane_sp : StatePoint :=
  mkStatePoint "mcccs" "pentaneUA" "NPT" "trappe-ua" 3 300
    2.5%float 372%float 101.325%float.

(** A rendering of the three floats of [pentane_sp] after conversion. *)
Definition repr3 (f : float) : string :=
  if PrimFloat.eqb f 25%float then "25.0"
  else if PrimFloat.eqb f 0.101325%float then "0.101325"
  else if PrimFloat.eqb f 372%float then "372.0"
  else "nan".

Definition template : string :=
  "nchain NCHAIN" +:+ String newline
    ("boxlx LENGTH temp TEMPERATURE" +:+ String newline
      ("pressure PRESSURE seed SEED" +:+ String newline "")).

Definition resolved : string :=
  "nchain 300" +:+ String newline
    ("boxlx 25.0 temp 372.0" +:+ String newline
      ("pressure 0.101325 seed 3" +:+ String newline "")).

Definition templates (content : string) : gmap string string :=
  <["fort.4.melt" := content]>
  (<["fort.4.cool" := content]>
  (<["fort.4.equil" := content]>
  (<["fort.4.prod" := content]> ∅))).


Definition fresh_job : Job := mkJob "0f3c" pentane_sp ∅ empty_doc.

(** Three resolved templates and a melt template in which [SEED] is left. *)
Definition leftover_seed_job : Job :=
  mkJob "0f3c" pentane_sp
    (<["fort.4.melt" := "iseed SEED"]> (templates resolved)) empty_doc.


(** Libraries whose every call returns. *)
Definition libraries : Libraries :=
  mkLibraries unit unit unit unit
    (λ _, Returns tt) (λ _, Returns tt) (λ _, Returns tt)
    (λ _ _, Returns tt) (λ _ _, Returns tt).

Definition job_of (s : StatePoint) : Job := mkJob "0f3c" s ∅ empty_doc.

Definition hexane_job : Job :=
  job_of (mkStatePoint "mcccs" "hexaneUA" "NPT" "trappe-ua" 3 300
            2.5%float 372%float 101.325%float).

Definition benzene_job : Job :=
  job_of (mkStatePoint "mcccs" "benzeneUA" "NPT" "trappe-ua" 3 300
            2.5%float 372%float 101.325%float).

Definition gaff_job : Job :=
  job_of (mkStatePoint "mcccs" "methaneUA" "NPT" "gaff" 3 300
            2.5%float 372%float 101.325%float).

(** A binary that completes: it leaves its six files, the log ending with
    the marker, and touches nothing else. *)
Definition topmon_completes (fs : gmap string string) : gmap string string :=
  <["fort.12" := "input read from " +:+ default "" (fs !! "fort.4")]>
  (<["box1config1a.xyz" := "5 C C C C C"]>
  (<["run1a.dat" := "MCCCS topmon (branch: ABE)" +:+ String newline
                     (" Program ended at 2021-07-01" +:+ String newline "")]>
  (<["config1a.dat" := "restart from " +:+ default "" (fs !! "fort.77")]>
  (<["box1movie1a.pdb" := "CRYST1"]>
  (<["box1movie1a.xyz" := "300"]> fs))))).

(** A job ready for production: resolved templates, a restart file and a
    finished equilibration, with the replicate counters set. *)
Definition production_job : Job :=
  mkJob "0f3c" pentane_sp
    (<["fort.77" := "initial structure"]>
     (<["topmon.inp" := "TraPPE-UA"]>
     (<["run.equil" := " Program ended at 2021-06-30"]> (templates resolved))))
    (mkDocument (Some true) (Some 0%Z) (Some 4%Z) (Some 0%Z)).

(** A binary that is stopped before the end of every production run: it
    leaves its six files, but the log of a run whose input is the
    production template lacks the marker. *)
Definition topmon_stopped_in_production (production_template : string)
    (fs : gmap string string) : gmap string string :=
  if decide (fs !! "fort.4" = Some production_template)
  then <["run1a.dat" := "MCCCS topmon (branch: ABE)"]> (topmon_completes fs)
  else topmon_completes fs.

(** A job as the copying operations and [make_restart_file] leave it:
    templates, force-field file and restart file in the workspace, nothing
    in the document. *)
Definition provisioned_job : Job :=
  mkJob "0f3c" pentane_sp
    (<["fort.77" := "initial structure"]>
     (<["topmon.inp" := "TraPPE-UA"]>
     (<["fort.4.prod" := "production " +:+ template]> (templates template))))
    empty_doc.

End Examples.

(** * Properties *)

(** ** Template resolver *)



(** ** Strings *)

Lemma append_nil (s : string) : "" +:+ s = s.
Proof. reflexivity. Qed.

Lemma append_cons (c : Ascii.ascii) (s t : string) :
  String c s +:+ t = String c (s +:+ t).
Proof. reflexivity. Qed.

Lemma append_nil_r (s : string) : s +:+ "" = s.
Proof. induction s as [|c s IH]; [done | by rewrite append_cons, IH]. Qed.

Lemma prefix_nil (s : string) : String.prefix "" s = true.
Proof. by destruct s. Qed.

Lemma prefix_spec (p s : string) :
  String.prefix p s = true ↔ ∃ t, s = p +:+ t.
Proof.
  revert s. induction p as [|c p IH]; intros s.
  - rewrite prefix_nil. split; [intros _; by exists s | done].
  - destruct s as [|d s]; simpl.
    + split; [done | intros [t Ht]; discriminate].
    + destruct (Ascii.ascii_dec c d) as [->|Hne].
      * rewrite IH. split; intros [t Ht]; exists t;
          [by rewrite Ht | by injection Ht].
      * split; [done | intros [t Ht]; injection Ht; intros; congruence].
Qed.

Lemma contains_cons (needle : string) (c : Ascii.ascii) (hay : string) :
  contains needle (String c hay)
  = String.prefix needle (String c hay) || contains needle hay.
Proof. reflexivity. Qed.

(** [contains] is substring containment. *)
Lemma contains_spec (needle hay : string) :
  contains needle hay = true ↔ ∃ a b, hay = a +:+ needle +:+ b.
Proof.
  induction hay as [|c hay IH].
  - change (contains needle "") with (String.prefix needle "" || false).
    rewrite orb_false_r, prefix_spec. split.
    + intros [t Ht]. by exists "", t.
    + intros (a & b & Hab). destruct a; [by exists b | discriminate].
  - rewrite contains_cons, orb_true_iff, prefix_spec, IH. split.
    + intros [[t Ht] | (a & b & Hab)].
      * by exists "", t.
      * exists (String c a), b. by rewrite append_cons, Hab.
    + intros (a & b & Hab). destruct a as [|d a].
      * left. by exists b.
      * right. rewrite append_cons in Hab. injection Hab as -> ->. by exists a, b.
Qed.

(** The lines of a text, put together again, are the text. *)
Lemma concat_lines (s : string) : concat (lines s) = s.
Proof.
  induction s as [|c s IH]; [done|].
  cbn [lines]. destruct (Ascii.eqb c newline).
  - cbn [concat foldr]. fold (concat (lines s)). by rewrite IH.
  - destruct (lines s) as [|l ls] eqn:E.
    + cbn in IH. by rewrite <- IH.
    + cbn [concat foldr] in *. fold (concat ls) in *.
      by rewrite append_cons, IH.
Qed.

Lemma replace_go_skip (old new x s : string) :
  replace_go old new (String.length x) (x +:+ s) = replace_go old new 0 s.
Proof. induction x as [|c x IH]; [done | exact IH]. Qed.

(** [replace] goes from left to right: an occurrence at the front is
    replaced as a whole and the replacement goes on after it; a character
    that starts no occurrence is kept; a text without an occurrence is left
    as it is. *)
Lemma replace_occurrence (old new s : string) :
  old ≠ "" → replace old new (old +:+ s) = new +:+ replace old new s.
Proof.
  destruct old as [|c old]; [done | intros _].
  unfold replace. rewrite append_cons. cbn [replace_go].
  assert (String.prefix (String c old) (String c (old +:+ s)) = true) as ->.
  { apply prefix_spec. by exists s. }
  replace (String.length (String c old) - 1) with (String.length old)
    by (cbn [String.length]; lia).
  by rewrite replace_go_skip.
Qed.

Lemma replace_other (old new : string) (c : Ascii.ascii) (s : string) :
  String.prefix old (String c s) = false →
  replace old new (String c s) = String c (replace old new s).
Proof. intros H. unfold replace. cbn [replace_go]. by rewrite H. Qed.

Lemma replace_absent (old new s : string) :
  contains old s = false → replace old new s = s.
Proof.
  unfold replace. induction s as [|c s IH]; [done|].
  rewrite contains_cons. intros [Hp Hc]%orb_false_iff.
  cbn [replace_go]. rewrite Hp. by rewrite IH.
Qed.

(** ** Running operations *)

Lemma bind_returns {A B} (m : op A) (k : A → op B) j j1 a :
  m j = (j1, Returns a) → bind m k j = k a j1.
Proof. intros H. unfold bind. by rewrite H. Qed.

Lemma bind_inv_returns {A B} (m : op A) (k : A → op B) j j' b :
  bind m k j = (j', Returns b) →
  ∃ j1 a, m j = (j1, Returns a) ∧ k a j1 = (j', Returns b).
Proof.
  unfold bind. destruct (m j) as [j1 [a|e]]; [eauto | discriminate].
Qed.

Lemma bind_get {B} (k : Job → op B) j : bind get k j = k j j.
Proof. reflexivity. Qed.

Lemma bind_ret {A B} (a : A) (k : A → op B) j : bind (ret a) k j = k a j.
Proof. reflexivity. Qed.

Lemma bind_modify {B} (f : Job → Job) (k : unit → op B) j :
  bind (modify f) k j = k tt (f j).
Proof. reflexivity. Qed.

Lemma bind_call {A B} (r : outcome A) (k : A → op B) j :
  bind (call r) k j
  = match r with Returns a => k a j | Raises e => (j, Raises e) end.
Proof. unfold bind, call. by destruct r. Qed.

Lemma isfile_lookup (name : string) (j : Job) :
  isfile name j
  = (j, Returns (match ws j !! name with Some _ => true | None => false end)).
Proof.
  unfold isfile. by destruct (ws j !! name).
Qed.

(** ** Stage completion predicates *)

Lemma log_finished_spec (step : string) (j : Job) :
  log_finished step j
  = (j, Returns match ws j !! ("run." +:+ step) with
                | Some content => PyBool (contains marker content)
                | None => PyNone
                end).
Proof.
  unfold log_finished.
  rewrite (bind_returns _ _ _ _ _ (isfile_lookup _ j)).
  destruct (ws j !! ("run." +:+ step)) as [content|] eqn:E; [|done].
  unfold read_file, bind, ret. rewrite E.
  by destruct (contains marker content).
Qed.

Lemma prod_finished_spec (j : Job) :
  prod_finished j
  = (j, Returns match ws j !! run_log Prod j with
                | Some content => PyBool (contains marker content)
                | None => PyNone
                end).
Proof.
  unfold prod_finished, run_log, step_name, try_except_attr_key, doc_attr, bind, ret.
  destruct (doc_prod_replicates_done (doc j)) as [n|];
    apply log_finished_spec.
Qed.



(** ** Replicate counters *)

Lemma all_prod_replicates_done_eval (j : Job) :
  all_prod_replicates_done j
  = (j, Returns (PyBool
       match doc_prod_replicates_done (doc j), doc_num_prod_replicates (doc j) with
       | Some a, Some b => bool_decide (b ≤ a)%Z
       | _, _ => false
       end)).
Proof.
  unfold all_prod_replicates_done, try_except_attr_key, doc_attr, bind, ret.
  destruct (doc_prod_replicates_done (doc j)) as [a|]; [|done].
  by destruct (doc_num_prod_replicates (doc j)) as [b|].
Qed.

(** C4. [all_prod_replicates_done] returns [True] exactly when both
    counters are set and [prod_replicates_done >= num_prod_replicates];
    when either is unset the [except] branch makes it return [False], and
    it never raises or changes the job. *)
Theorem all_prod_replicates_done_spec (j : Job) :
  (all_prod_replicates_done j = (j, Returns (PyBool true)) ↔
   ∃ a b, doc_prod_replicates_done (doc j) = Some a ∧
          doc_num_prod_replicates (doc j) = Some b ∧ (a >= b)%Z) ∧
  (doc_prod_replicates_done (doc j) = None ∨
   doc_num_prod_replicates (doc j) = None →
   all_prod_replicates_done j = (j, Returns (PyBool false))) ∧
  (∃ r, all_prod_replicates_done j = (j, Returns (PyBool r))).
Proof.
  rewrite all_prod_replicates_done_eval.
  destruct (doc_prod_replicates_done (doc j)) as [a|],
           (doc_num_prod_replicates (doc j)) as [b|];
    (split; [|split; [|eauto]]).
  - split.
    + intros [= H%bool_decide_eq_true]. exists a, b. repeat split; lia.
    + intros (a' & b' & [= <-] & [= <-] & H).
      do 3 f_equal. apply bool_decide_eq_true. lia.
  - by intros [|].
  - split; [done | by intros (a' & b' & _ & ? & _)].
  - done.
  - split; [done | by intros (a' & b' & ? & _)].
  - done.
  - split; [done | by intros (a' & b' & ? & _)].
  - done.
Qed.

Lemma all_prod_replicates_done_spec_witness :
  all_prod_replicates_done Examples.fresh_job
  = (Examples.fresh_job, Returns (PyBool false)).
Proof.
  apply (all_prod_replicates_done_spec Examples.fresh_job).
  left. reflexivity.
Defined.

(** ** Readiness of the templates *)

Lemma count_keywords_fold (keywords : list string) (file_name content : string)
    (c : nat) (j : Job) :
  ws j !! file_name = Some content →
  for_fold keywords c (λ keyword c,
    text <- read_file file_name ;;
    if contains keyword text then ret (S c) else ret c) j
  = (j, Returns
       (c + length (filter (λ keyword, contains keyword content = true) keywords))).
Proof.
  intros Hfile. revert c.
  induction keywords as [|keyword keywords IH]; intros c.
  - simpl. unfold ret. do 3 f_equal. lia.
  - cbn [for_fold]. unfold bind at 1. unfold bind at 1, read_file.
    rewrite Hfile, filter_cons.
    destruct (contains keyword content) eqn:E; unfold ret at 1.
    + rewrite IH. rewrite decide_True by done. simpl. do 3 f_equal. lia.
    + rewrite IH. rewrite decide_False by done. done.
Qed.

Lemma count_keywords_spec (file_name content : string) (c : nat) (j : Job) :
  ws j !! file_name = Some content →
  count_keywords file_name c j = (j, Returns (c + leftover content)).
Proof. apply count_keywords_fold. Qed.

Lemma scan_templates (names : list string) (c : nat) (j : Job) :
  for_fold names c (λ name c,
    present <- isfile ("fort.4." +:+ name) ;;
    if negb present then ret c
    else count_keywords ("fort.4." +:+ name) c) j
  = (j, Returns (c + leftovers (ws j) names)).
Proof.
  revert c. induction names as [|name names IH]; intros c.
  - simpl. unfold ret. do 3 f_equal. lia.
  - cbn [for_fold leftovers foldr]. unfold bind at 1.
    rewrite (bind_returns _ _ _ _ _ (isfile_lookup _ j)).
    destruct (ws j !! ("fort.4." +:+ name)) as [content|] eqn:E; cbn [negb].
    + rewrite (count_keywords_spec _ _ _ _ E), IH.
      unfold leftovers. do 2 f_equal. lia.
    + unfold ret at 1. rewrite IH. done.
Qed.

(** What [files_ready] does: it records and returns whether the count of
    keywords found in the templates that are present is zero. *)
Lemma files_ready_eval (j : Job) :
  files_ready j
  = let ready := bool_decide (leftovers (ws j) file_names = 0) in
    (set_doc (with_files_ready ready) j, Returns (PyBool ready)).
Proof.
  unfold files_ready. unfold bind at 1, modify at 1.
  unfold bind at 1. rewrite scan_templates. cbn [ws set_doc].
  rewrite Nat.add_0_l.
  destruct (decide (leftovers (ws j) file_names = 0)) as [Hz|Hnz]; cbn zeta.
  - rewrite bool_decide_eq_true_2 by done. reflexivity.
  - rewrite bool_decide_eq_false_2 by done. reflexivity.
Qed.




Ltac each_member H :=
  repeat (apply elem_of_cons in H as [H|H];
          [try discriminate H; try subst |]);
  try (by apply elem_of_nil in H).

(** C1, at a job that shows the defect. All four templates are present and
    the melt template still holds the token [SEED], one of the five the
    resolver substitutes; [files_ready] looks for [VARIABLES] in its place,
    finds nothing, records [True] in the document and returns [True]. *)
Theorem files_ready_misses_SEED :
  all_templates_present Examples.leftover_seed_job ∧
  "SEED" ∈ resolver_keywords ∧
  ("SEED" ∉ ready_keywords) ∧
  (∃ content,
     ws Examples.leftover_seed_job !! "fort.4.melt" = Some content ∧
     contains "SEED" content = true) ∧
  files_ready Examples.leftover_seed_job
  = (set_doc (with_files_ready true) Examples.leftover_seed_job,
     Returns (PyBool true)).
Proof.
  split; [|split; [|split; [|split]]].
  - intros name Hn. each_member Hn; vm_compute; eauto.
  - unfold resolver_keywords. do 4 right. left.
  - intros H. each_member H.
  - exists "iseed SEED". split; vm_compute; reflexivity.
  - rewrite files_ready_eval. vm_compute. reflexivity.
Qed.



(** ** Molecules and force fields *)

Lemma molecule_dict_None (name : string) :
  molecule_dict !! name = None ↔ name ∉ molecule_names.
Proof.
  unfold molecule_dict, molecule_names.
  rewrite !not_elem_of_cons. split.
  - intros H. repeat split; [intros -> .. | apply not_elem_of_nil];
      vm_compute in H; discriminate.
  - intros (H1 & H2 & H3 & H4 & H5 & _).
    by rewrite !lookup_insert_ne, lookup_empty.
Qed.

Lemma get_molecules_eval (j : Job) :
  get_molecules j
  = (j, match molecule_dict !! molecule (sp j) with
        | Some m => Returns [m]
        | None => Raises (KeyError (molecule (sp j)))
        end).
Proof.
  unfold get_molecules, bind, get.
  by destruct (molecule_dict !! molecule (sp j)).
Qed.

(** C10. For the names [benzeneUA] and [ethanolAA], [get_molecules]
    returns the list [[None]] and raises nothing, so [get_system] is handed
    [None] as its molecule (and stops at [molecule.to_parmed()]). The lookup
    error of [get_molecules] arises exactly for the names the dictionary
    lacks. *)
Theorem get_molecules_unbuilt (L : Libraries) (j : Job) :
  (molecule (sp j) = "benzeneUA" ∨ molecule (sp j) = "ethanolAA" →
   get_molecules j = (j, Returns [None]) ∧
   ∀ s, construct_system L (sp j) = Returns s →
        get_system L j = (j, Raises (AttributeError "NoneType" "to_parmed"))) ∧
  ((∃ e, snd (get_molecules j) = Raises e) ↔
   molecule (sp j) ∉ molecule_names).
Proof.
  split.
  - intros Hname.
    assert (get_molecules j = (j, Returns [None])) as Hget.
    { rewrite get_molecules_eval. by destruct Hname as [-> | ->]. }
    split; [exact Hget |].
    intros s Hs. unfold get_system.
    rewrite bind_get, bind_call, Hs, (bind_returns _ _ _ _ _ Hget).
    cbn [lookup list_lookup]. by rewrite bind_ret, bind_call.
  - rewrite get_molecules_eval, <- molecule_dict_None. cbn [snd].
    destruct (molecule_dict !! molecule (sp j)) as [m|]; split; try done.
    + by intros [e He].
    + eauto.
Qed.

Lemma get_molecules_unbuilt_witness :
  get_molecules Examples.benzene_job = (Examples.benzene_job, Returns [None]) ∧
  get_system Examples.libraries Examples.benzene_job
  = (Examples.benzene_job, Raises (AttributeError "NoneType" "to_parmed")).
Proof.
  destruct (get_molecules_unbuilt Examples.libraries Examples.benzene_job)
    as [H _].
  destruct (H (or_introl eq_refl)) as [H1 H2].
  split; [exact H1 | exact (H2 tt eq_refl)].
Defined.

(** C8, as the code has it. An unknown force field makes [get_system]
    raise, by its own [raise] statement, an exception whose message ends in
    the id of the job; this is reached when the molecule is one that is
    built and the calls before it return. An unknown molecule makes
    [get_molecules] fail with the [KeyError] of the dictionary lookup, which
    carries the molecule name. *)
Theorem configuration_errors (L : Libraries) (j : Job) :
  (molecule (sp j) ∉ molecule_names →
   get_molecules j = (j, Raises (KeyError (molecule (sp j))))) ∧
  (∀ s m p,
     forcefield_name (sp j) ∉ forcefield_names →
     construct_system L (sp j) = Returns s →
     molecule_dict !! molecule (sp j) = Some (Some m) →
     to_parmed L m = Returns p →
     ∃ msg,
       get_system L j = (j, Raises (Exception msg)) ∧
       msg = "No forcefield has been applied to this system " +:+ id j ∧
       contains (id j) msg = true ∧
       raised_explicitly (Exception msg) = true).
Proof.
  split.
  - intros Hname%molecule_dict_None. by rewrite get_molecules_eval, Hname.
  - intros s m p Hff Hs Hm Hp. eexists. split; [|split; [reflexivity|split]].
    + assert (get_molecules j = (j, Returns [Some m])) as Hget
        by (by rewrite get_molecules_eval, Hm).
      unfold forcefield_names in Hff.
      rewrite !not_elem_of_cons in Hff. destruct Hff as (H1 & H2 & H3 & _).
      unfold get_system.
      rewrite bind_get, bind_call, Hs, (bind_returns _ _ _ _ _ Hget).
      cbn [lookup list_lookup].
      rewrite bind_ret, bind_call, bind_call, Hp.
      by rewrite !decide_False by done.
    + apply contains_spec.
      exists "No forcefield has been applied to this system ", "".
      by rewrite append_nil_r.
    + reflexivity.
Qed.

Lemma configuration_errors_witness :
  get_molecules Examples.hexane_job
  = (Examples.hexane_job, Raises (KeyError "hexaneUA")) ∧
  ∃ msg,
    get_system Examples.libraries Examples.gaff_job
    = (Examples.gaff_job, Raises (Exception msg)) ∧
    msg = "No forcefield has been applied to this system 0f3c".
Proof.
  split.
  - apply (configuration_errors Examples.libraries Examples.hexane_job).
    intros H. each_member H.
  - destruct (configuration_errors Examples.libraries Examples.gaff_job)
      as [_ H].
    destruct (H tt MethaneUA tt) as (msg & Hrun & Hmsg & _);
      [intros Hff; each_member Hff | reflexivity .. |].
    exists msg. split; [exact Hrun | exact Hmsg].
Defined.

(** C8 as stated fails for molecules: the error for an unknown molecule is
    not raised by the module and its message does not name the job. *)
Lemma unknown_molecule_error_implicit :
  (molecule (sp Examples.hexane_job) ∉ molecule_names) ∧
  ∃ e,
    get_molecules Examples.hexane_job = (Examples.hexane_job, Raises e) ∧
    raised_explicitly e = false ∧
    contains (id Examples.hexane_job) (message e) = false.
Proof.
  split.
  - intros H. each_member H.
  - exists (KeyError "hexaneUA"). repeat split; vm_compute; reflexivity.
Qed.

(** ** Stage runners *)

Lemma copyfile_returns (src dst content : string) (j : Job) :
  ws j !! src = Some content → src ≠ dst →
  copyfile src dst j = (set_ws (insert dst content) j, Returns tt).
Proof. intros H Hne. unfold copyfile. by rewrite H, decide_False. Qed.

Lemma move_returns (src dst content : string) (j : Job) :
  ws j !! src = Some content →
  move src dst j
  = (set_ws (λ fs, <[dst := content]> (delete src fs)) j, Returns tt).
Proof. intros H. unfold move. by rewrite H. Qed.

Lemma copyfile_inv (src dst : string) (j j' : Job) :
  copyfile src dst j = (j', Returns tt) →
  ∃ content, ws j !! src = Some content ∧ j' = set_ws (insert dst content) j.
Proof.
  unfold copyfile. destruct (ws j !! src) as [c|]; [|discriminate].
  case_decide; [discriminate|]. intros [= <-]. eauto.
Qed.

Lemma move_inv (src dst : string) (j j' : Job) :
  move src dst j = (j', Returns tt) →
  ∃ content, ws j !! src = Some content ∧
             j' = set_ws (λ fs, <[dst := content]> (delete src fs)) j.
Proof.
  unfold move. destruct (ws j !! src) as [c|]; [|discriminate].
  intros [= <-]. eauto.
Qed.

Ltac step_inv H :=
  let j1 := fresh "j" in
  let H1 := fresh "Hop" in
  apply bind_inv_returns in H as (j1 & [] & H1 & H).

Lemma keeps_doc_bind {A B} (m : op A) (k : A → op B) :
  keeps_doc m → (∀ a, keeps_doc (k a)) → keeps_doc (bind m k).
Proof.
  intros Hm Hk j. unfold bind. specialize (Hm j).
  destruct (m j) as [j1 [a|e]]; cbn [fst] in *; [|done].
  by rewrite Hk.
Qed.

Lemma keeps_doc_copyfile (src dst : string) : keeps_doc (copyfile src dst).
Proof.
  intros j. unfold copyfile. destruct (ws j !! src); [|done].
  by case_decide.
Qed.

Lemma keeps_doc_move (src dst : string) : keeps_doc (move src dst).
Proof. intros j. unfold move. by destruct (ws j !! src). Qed.

Lemma keeps_doc_communicate topmon : keeps_doc (communicate topmon).
Proof. done. Qed.

Lemma keeps_doc_simulate topmon (template step : string) :
  keeps_doc (simulate topmon template step).
Proof.
  unfold simulate.
  repeat (apply keeps_doc_bind; [|intros _]);
    auto using keeps_doc_copyfile, keeps_doc_move, keeps_doc_communicate.
Qed.

Lemma has_restart_file_eval (j : Job) :
  has_restart_file j
  = (j, Returns (PyBool match ws j !! "fort.77" with
                        | Some _ => true
                        | None => false
                        end)).
Proof.
  unfold has_restart_file.
  by rewrite (bind_returns _ _ _ _ _ (isfile_lookup _ j)).
Qed.

(** After a run that returns, [fort.77] holds what the stage-qualified
    restart file holds. *)
Lemma simulate_restart topmon (template step : string) (j j' : Job) :
  simulate topmon template step j = (j', Returns tt) →
  ∃ content, ws j' !! "fort.77" = Some content ∧
             ws j' !! ("config1a.dat." +:+ step) = Some content.
Proof.
  unfold simulate. intros H. do 8 step_inv H.
  apply move_inv in H as (c9 & _ & ->).
  apply move_inv in Hop6 as (c8 & _ & ->).
  apply move_inv in Hop5 as (c7 & Hc7 & ->).
  apply copyfile_inv in Hop4 as (c6 & Hc6 & ->).
  cbn [ws set_ws] in *.
  rewrite lookup_insert_ne in Hc7 by discriminate.
  assert (c7 = c6) as -> by congruence.
  exists c6. split.
  - do 3 rewrite lookup_insert_ne, lookup_delete_ne by discriminate.
    by rewrite lookup_insert_eq.
  - do 2 rewrite lookup_insert_ne, lookup_delete_ne by discriminate.
    by rewrite lookup_insert_eq.
Qed.

(** A production run that returns has moved the counter up by one and run
    the simulation under the new index. *)
Lemma run_prod_inv topmon (j j' : Job) :
  run_prod topmon j = (j', Returns tt) →
  ∃ n, doc_prod_replicates_done (doc j) = Some n ∧
       doc j' = with_prod_replicates_done (n + 1) (doc j) ∧
       simulate topmon "prod" ("prod" +:+ str_int (n + 1))
         (set_doc (with_prod_replicates_done (n + 1)) j) = (j', Returns tt).
Proof.
  unfold run_prod, bind at 1, doc_attr at 1.
  destruct (doc_prod_replicates_done (doc j)) as [n|]; [|discriminate].
  rewrite bind_modify. unfold bind at 1, doc_attr at 1. cbn [doc set_doc
    doc_prod_replicates_done with_prod_replicates_done].
  intros H. exists n. split; [done|].
  apply bind_inv_returns in H as (j1 & [] & Hsim & H).
  rewrite (bind_returns _ _ _ _ _ (all_prod_replicates_done_eval j1)) in H.
  rewrite (bind_returns _ _ _ _ _ (prod_finished_spec j1)) in H.
  injection H as <-. split; [|done].
  pose proof (keeps_doc_simulate topmon "prod" ("prod" +:+ str_int (n + 1))
                (set_doc (with_prod_replicates_done (n + 1)) j)) as Hdoc.
  by rewrite Hsim in Hdoc.
Qed.

(** C9. When a stage runner returns, [has_restart_file] holds of the job:
    [fort.77] is there, with the contents of the restart file the binary
    wrote, now under its stage-qualified name. *)
Theorem restart_file_reestablished topmon (s : stage) (j j' : Job) :
  runner topmon s j = (j', Returns tt) →
  has_restart_file j' = (j', Returns (PyBool true)) ∧
  ∃ content,
    ws j' !! "fort.77" = Some content ∧
    ws j' !! ("config1a.dat." +:+ step_name s j') = Some content.
Proof.
  intros H.
  assert (∃ content, ws j' !! "fort.77" = Some content ∧
            ws j' !! ("config1a.dat." +:+ step_name s j') = Some content)
    as (content & H77 & Hcfg).
  { destruct s; cbn [runner] in H;
      [by apply simulate_restart in H .. |].
    apply run_prod_inv in H as (n & _ & Hdoc & H).
    apply simulate_restart in H. unfold step_name. by rewrite Hdoc. }
  split; [|eauto].
  by rewrite has_restart_file_eval, H77.
Qed.

Lemma restart_file_reestablished_witness :
  let j' := fst (runner Examples.topmon_completes Prod Examples.production_job) in
  has_restart_file j' = (j', Returns (PyBool true)).
Proof.
  apply (restart_file_reestablished Examples.topmon_completes Prod
           Examples.production_job).
  vm_compute. reflexivity.
Defined.

Ltac lookup_through :=
  repeat first
    [ rewrite lookup_insert_eq
    | rewrite lookup_insert_ne by (discriminate || done)
    | rewrite lookup_delete_ne by (discriminate || done) ].

(** A run on a job that has the template, with a binary that completes:
    the runner returns, every artifact is there under its qualified name,
    the log is the one the binary wrote, and the files the runner does not
    name are as the binary left them. *)
Lemma simulate_completes topmon (template step text : string) (j : Job) :
  completes topmon →
  ws j !! ("fort.4." +:+ template) = Some text →
  "fort.4." +:+ template ≠ "fort.4" →
  ∃ j',
    simulate topmon template step j = (j', Returns tt) ∧
    doc j' = doc j ∧
    (∀ name, name ∈ artifacts step → is_Some (ws j' !! name)) ∧
    ws j' !! ("run." +:+ step)
      = topmon (<["fort.4" := text]> (ws j)) !! "run1a.dat" ∧
    (∀ name, name ∉ artifacts step → name ∉ engine_outputs →
             name ≠ "fort.77" →
             ws j' !! name = topmon (<["fort.4" := text]> (ws j)) !! name).
Proof.
  intros Hall Htemplate Hne.
  set (fs := topmon (<["fort.4" := text]> (ws j))).
  assert (∀ name, name ∈ engine_outputs → is_Some (fs !! name)) as Hout
    by (intros; by apply Hall).
  destruct (Hout "fort.12") as [c1 H1]; [left |].
  destruct (Hout "box1config1a.xyz") as [c2 H2]; [right; left |].
  destruct (Hout "run1a.dat") as [c3 H3]; [do 2 right; left |].
  destruct (Hout "config1a.dat") as [c4 H4]; [do 3 right; left |].
  destruct (Hout "box1movie1a.pdb") as [c5 H5]; [do 4 right; left |].
  destruct (Hout "box1movie1a.xyz") as [c6 H6]; [do 5 right; left |].
  eexists. split; [|split; [|split; [|split]]].
  - unfold simulate.
    rewrite (bind_returns _ _ _ _ _ (copyfile_returns _ _ _ _ Htemplate Hne)).
    unfold communicate. rewrite bind_modify.
    erewrite bind_returns; [|apply (move_returns _ _ c1); exact H1].
    erewrite bind_returns;
      [|apply (move_returns _ _ c2); cbn [ws set_ws]; by lookup_through].
    erewrite bind_returns;
      [|apply (move_returns _ _ c3); cbn [ws set_ws]; by lookup_through].
    erewrite bind_returns;
      [|apply (copyfile_returns _ _ c4); [|discriminate];
        cbn [ws set_ws]; by lookup_through].
    erewrite bind_returns;
      [|apply (move_returns _ _ c4); cbn [ws set_ws]; by lookup_through].
    erewrite bind_returns;
      [|apply (move_returns _ _ c5); cbn [ws set_ws]; by lookup_through].
    apply (move_returns _ _ c6). cbn [ws set_ws]. by lookup_through.
  - reflexivity.
  - cbn [ws set_ws]. intros name Hname. unfold artifacts in Hname.
    each_member Hname; by lookup_through.
  - cbn [ws set_ws]. by lookup_through.
  - cbn [ws set_ws]. intros name Hart Hout' H77.
    unfold artifacts in Hart. unfold engine_outputs in Hout'.
    rewrite !not_elem_of_cons in Hart. rewrite !not_elem_of_cons in Hout'.
    destruct Hart as (A1 & A2 & A3 & A4 & A5 & A6 & _).
    destruct Hout' as (O1 & O2 & O3 & O4 & O5 & O6 & _).
    by lookup_through.
Qed.

Lemma run_prod_completes topmon (n : Z) (text : string) (j : Job) :
  completes topmon →
  doc_prod_replicates_done (doc j) = Some n →
  ws j !! "fort.4.prod" = Some text →
  let step := "prod" +:+ str_int (n + 1) in
  ∃ j',
    run_prod topmon j = (j', Returns tt) ∧
    doc j' = with_prod_replicates_done (n + 1) (doc j) ∧
    (∀ name, name ∈ artifacts step → is_Some (ws j' !! name)) ∧
    ws j' !! ("run." +:+ step)
      = topmon (<["fort.4" := text]> (ws j)) !! "run1a.dat" ∧
    (∀ name, name ∉ artifacts step → name ∉ engine_outputs →
             name ≠ "fort.77" →
             ws j' !! name = topmon (<["fort.4" := text]> (ws j)) !! name).
Proof.
  intros Hall Hn Htext step.
  destruct (simulate_completes topmon "prod" step text
              (set_doc (with_prod_replicates_done (n + 1)) j) Hall Htext)
    as (j' & Hsim & Hdoc & Hrest); [discriminate|].
  exists j'. split; [|split; [exact Hdoc | exact Hrest]].
  unfold run_prod, bind at 1, doc_attr at 1. rewrite Hn.
  rewrite bind_modify. unfold bind at 1, doc_attr at 1.
  cbn [doc set_doc doc_prod_replicates_done with_prod_replicates_done].
  fold step. rewrite (bind_returns _ _ _ _ _ Hsim).
  rewrite (bind_returns _ _ _ _ _ (all_prod_replicates_done_eval j')).
  by rewrite (bind_returns _ _ _ _ _ (prod_finished_spec j')).
Qed.

(** C2. With a binary that completes and touches only its own output
    files, two production runs from a counter at 0 both return; the counter
    goes to 1 and then to 2; the first run leaves its artifacts under the
    suffix [prod1] and the second under [prod2]; the second run leaves the
    [prod1] files as they were, and neither run writes a file under the
    suffix [prod0]. *)
Theorem run_prod_twice topmon (j : Job) :
  completes topmon →
  keeps_other_files topmon →
  doc_prod_replicates_done (doc j) = Some 0%Z →
  is_Some (ws j !! "fort.4.prod") →
  ∃ j1 j2,
    run_prod topmon j = (j1, Returns tt) ∧
    run_prod topmon j1 = (j2, Returns tt) ∧
    doc_prod_replicates_done (doc j1) = Some 1%Z ∧
    doc_prod_replicates_done (doc j2) = Some 2%Z ∧
    (∀ name, name ∈ artifacts "prod1" →
       is_Some (ws j1 !! name) ∧ ws j2 !! name = ws j1 !! name) ∧
    (∀ name, name ∈ artifacts "prod2" → is_Some (ws j2 !! name)) ∧
    (∀ name, name ∈ artifacts "prod0" →
       ws j1 !! name = ws j !! name ∧ ws j2 !! name = ws j !! name).
Proof.
  intros Hall Hkeeps Hzero [text Htext].
  assert (∀ fs name, name ∉ engine_outputs → name ≠ "fort.4" →
            topmon (<["fort.4" := text]> fs) !! name = fs !! name) as Hframe.
  { intros fs name Hout H4. by rewrite Hkeeps, lookup_insert_ne. }
  destruct (run_prod_completes topmon 0 text j Hall Hzero Htext)
    as (j1 & Hrun1 & Hdoc1 & Hart1 & _ & Hrest1).
  change (str_int (0 + 1)) with "1" in *.
  change ("prod" +:+ "1") with "prod1" in *.
  assert (ws j1 !! "fort.4.prod" = Some text) as Htext1.
  { rewrite Hrest1, Hframe; [done | ..];
      try discriminate; intros H; each_member H. }
  assert (doc_prod_replicates_done (doc j1) = Some 1%Z) as Hone
    by (by rewrite Hdoc1).
  destruct (run_prod_completes topmon 1 text j1 Hall Hone Htext1)
    as (j2 & Hrun2 & Hdoc2 & Hart2 & _ & Hrest2).
  change (str_int (1 + 1)) with "2" in *.
  change ("prod" +:+ "2") with "prod2" in *.
  assert (∀ name step, name ∈ artifacts step →
            (name ∉ engine_outputs) ∧ name ≠ "fort.77" ∧ name ≠ "fort.4")
    as Hnames.
  { intros name step H. unfold artifacts in H. each_member H;
      (split; [intros Hin; each_member Hin | split; discriminate]). }
  exists j1, j2.
  split; [exact Hrun1 |]. split; [exact Hrun2 |]. split; [exact Hone |].
  split; [by rewrite Hdoc2 |].
  split; [|split].
  - intros name H. split; [by apply Hart1 |].
    destruct (Hnames _ _ H) as (Hout & H77 & H4).
    rewrite Hrest2, Hframe; [done | done | done | | done | done].
    intros Hin. each_member H; each_member Hin.
  - exact Hart2.
  - intros name H. destruct (Hnames _ _ H) as (Hout & H77 & H4).
    assert (ws j1 !! name = ws j !! name) as H1.
    { rewrite Hrest1, Hframe; [done | done | done | | done | done].
      intros Hin. each_member H; each_member Hin. }
    split; [exact H1 |].
    rewrite Hrest2, Hframe; [done | done | done | | done | done].
    intros Hin. each_member H; each_member Hin.
Qed.

Lemma topmon_completes_completes : completes Examples.topmon_completes.
Proof.
  intros fs name H. unfold engine_outputs in H. unfold Examples.topmon_completes.
  each_member H; lookup_through; eauto.
Qed.

Lemma topmon_completes_keeps : keeps_other_files Examples.topmon_completes.
Proof.
  intros fs name H. unfold engine_outputs in H.
  rewrite !not_elem_of_cons in H.
  destruct H as (O1 & O2 & O3 & O4 & O5 & O6 & _).
  unfold Examples.topmon_completes. by lookup_through.
Qed.

Lemma topmon_completes_logs_end : logs_end Examples.topmon_completes.
Proof.
  intros fs content. unfold Examples.topmon_completes.
  lookup_through. by intros [= <-].
Qed.

Lemma run_prod_twice_witness :
  ∃ j1 j2,
    run_prod Examples.topmon_completes Examples.production_job
      = (j1, Returns tt) ∧
    run_prod Examples.topmon_completes j1 = (j2, Returns tt) ∧
    doc_prod_replicates_done (doc j1) = Some 1%Z ∧
    doc_prod_replicates_done (doc j2) = Some 2%Z ∧
    is_Some (ws j1 !! "run.prod1") ∧
    ws j2 !! "run.prod1" = ws j1 !! "run.prod1" ∧
    is_Some (ws j2 !! "run.prod2").
Proof.
  destruct (run_prod_twice Examples.topmon_completes Examples.production_job
              topmon_completes_completes topmon_completes_keeps eq_refl)
    as (j1 & j2 & H1 & H2 & D1 & D2 & A1 & A2 & _).
  - exists Examples.resolved. vm_compute. reflexivity.
  - exists j1, j2.
    destruct (A1 "run.prod1") as [P1 K1]; [do 2 right; left |].
    repeat split; try assumption. apply A2. do 2 right. left.
Defined.

(** ** The replicate counters along the workflow *)

Lemma keeps_doc_state {A} (m : op A) :
  (∀ j, fst (m j) = j) → keeps_doc m.
Proof. intros H j. by rewrite H. Qed.

Lemma run_prod_doc topmon (j : Job) :
  doc (fst (run_prod topmon j))
  = match doc_prod_replicates_done (doc j) with
    | Some n => with_prod_replicates_done (n + 1) (doc j)
    | None => doc j
    end.
Proof.
  unfold run_prod, bind at 1, doc_attr at 1.
  destruct (doc_prod_replicates_done (doc j)) as [n|]; [|done].
  rewrite bind_modify. unfold bind at 1, doc_attr at 1.
  cbn [doc set_doc doc_prod_replicates_done with_prod_replicates_done].
  assert (keeps_doc
            (simulate topmon "prod" ("prod" +:+ str_int (n + 1)) ;;
             _ <- all_prod_replicates_done ;;
             _ <- prod_finished ;;
             ret tt)) as H.
  { apply keeps_doc_bind; [apply keeps_doc_simulate | intros _].
    apply keeps_doc_bind; [|intros _].
    { apply keeps_doc_state. intros j'.
      by rewrite all_prod_replicates_done_eval. }
    apply keeps_doc_bind; [|by intros _].
    apply keeps_doc_state. intros j'. by rewrite prod_finished_spec. }
  by rewrite H.
Qed.

Lemma holds_all_prod_replicates_done (j : Job) :
  holds all_prod_replicates_done j
  = match doc_prod_replicates_done (doc j), doc_num_prod_replicates (doc j) with
    | Some a, Some b => bool_decide (b ≤ a)%Z
    | _, _ => false
    end.
Proof. unfold holds. by rewrite all_prod_replicates_done_eval. Qed.

Lemma holds_prod_finished (j : Job) :
  holds prod_finished j
  = match ws j !! run_log Prod j with
    | Some content => contains marker content
    | None => false
    end.
Proof.
  unfold holds. rewrite prod_finished_spec. cbn [snd].
  by destruct (ws j !! run_log Prod j).
Qed.

(** [set_prod_replicates] establishes the bound, and a production run
    keeps it on a job whose replicates are not all done. *)
Lemma set_prod_replicates_bounded (j : Job) :
  counters_bounded (fst (set_prod_replicates j)).
Proof. intros a b [= <-] [= <-]. lia. Qed.

Lemma run_prod_keeps_bound topmon (j : Job) :
  counters_bounded j →
  holds all_prod_replicates_done j = false →
  counters_bounded (fst (run_prod topmon j)).
Proof.
  intros Hb Hnot a b. rewrite run_prod_doc.
  rewrite holds_all_prod_replicates_done in Hnot.
  destruct (doc_prod_replicates_done (doc j)) as [n|] eqn:Hn.
  - cbn. intros [= <-] Hnum. rewrite Hnum in Hnot.
    apply bool_decide_eq_false in Hnot. lia.
  - intros Ha. by rewrite Hn in Ha.
Qed.

Lemma schedule_steps topmon float_repr se (os : list operation) (j j' : Job) :
  schedule topmon float_repr se os j = Some j' →
  rtc (step topmon float_repr se) j j'.
Proof.
  revert j. induction os as [|o os IH]; intros j; cbn [schedule].
  - intros [= <-]. apply rtc_refl.
  - destruct (eligible se o j) eqn:E; [|discriminate].
    intros H. eapply rtc_l; [by apply step_operation | by apply IH].
Qed.

(** C5 as stated fails. From a provisioned job, with a binary that is
    stopped before the end of each production run, every move below is an
    operation run while its preconditions hold and its postconditions do
    not all hold; the fifth production run takes the counter to 5, past
    the 4 replicates asked for. *)
Lemma counters_exceed_target :
  ∃ j,
    schedule
      (Examples.topmon_stopped_in_production ("production " +:+ Examples.resolved))
      Examples.repr3 (λ _, true)
      [Set_equil_replicates; Set_prod_replicates;
       Replace_keyword_fort_files; Run_melt; Run_cool; Run_equil;
       Run_prod; Run_prod; Run_prod; Run_prod; Run_prod]
      Examples.provisioned_job = Some j ∧
    reachable
      (Examples.topmon_stopped_in_production ("production " +:+ Examples.resolved))
      Examples.repr3 (λ _, true) Examples.provisioned_job j ∧
    doc_prod_replicates_done (doc j) = Some 5%Z ∧
    doc_num_prod_replicates (doc j) = Some 4%Z ∧
    ¬ counters_bounded j.
Proof.
  assert (∃ j,
            schedule
              (Examples.topmon_stopped_in_production
                 ("production " +:+ Examples.resolved))
              Examples.repr3 (λ _, true)
              [Set_equil_replicates; Set_prod_replicates;
               Replace_keyword_fort_files; Run_melt; Run_cool; Run_equil;
               Run_prod; Run_prod; Run_prod; Run_prod; Run_prod]
              Examples.provisioned_job = Some j ∧
            doc_prod_replicates_done (doc j) = Some 5%Z ∧
            doc_num_prod_replicates (doc j) = Some 4%Z)
    as (j & E & H5 & H4).
  { eexists. split; [vm_compute; reflexivity |]. split; reflexivity. }
  exists j. split; [exact E |].
  split; [split; [reflexivity | exact (schedule_steps _ _ _ _ _ _ E)] |].
  split; [exact H5 | split; [exact H4 |]].
  intros H. specialize (H 5%Z 4%Z H5 H4). lia.
Qed.

Lemma untouched_bind {A B} name (m : op A) (k : A → op B) :
  untouched name m → (∀ a, untouched name (k a)) → untouched name (bind m k).
Proof.
  intros Hm Hk j. unfold bind. specialize (Hm j).
  destruct (m j) as [j1 [a|e]]; cbn [fst] in *; [|done].
  by rewrite Hk.
Qed.

Lemma keeps_present_bind {A B} name (m : op A) (k : A → op B) :
  keeps_present name m → (∀ a, keeps_present name (k a)) →
  keeps_present name (bind m k).
Proof.
  intros Hm Hk j Hj. unfold bind. specialize (Hm j Hj).
  destruct (m j) as [j1 [a|e]]; cbn [fst] in *; [|done].
  by apply Hk.
Qed.

Lemma untouched_for_each {A} name (xs : list A) (f : A → op unit) :
  (∀ x, untouched name (f x)) → untouched name (for_each xs f).
Proof.
  intros Hf. induction xs as [|x xs IH]; [done|].
  cbn [for_each]. by apply untouched_bind.
Qed.

Lemma keeps_present_for_each {A} name (xs : list A) (f : A → op unit) :
  (∀ x, keeps_present name (f x)) → keeps_present name (for_each xs f).
Proof.
  intros Hf. induction xs as [|x xs IH]; [by intros j Hj|].
  cbn [for_each]. by apply keeps_present_bind.
Qed.

Lemma keeps_doc_for_each {A} (xs : list A) (f : A → op unit) :
  (∀ x, keeps_doc (f x)) → keeps_doc (for_each xs f).
Proof.
  intros Hf. induction xs as [|x xs IH]; [done|].
  cbn [for_each]. by apply keeps_doc_bind.
Qed.

Lemma untouched_copyfile name (src dst : string) :
  name ≠ dst → untouched name (copyfile src dst).
Proof.
  intros Hne j. unfold copyfile. destruct (ws j !! src); [|done].
  case_decide; [done|]. cbn [fst ws set_ws]. by rewrite lookup_insert_ne.
Qed.

Lemma untouched_move name (src dst : string) :
  name ≠ src → name ≠ dst → untouched name (move src dst).
Proof.
  intros Hs Hd j. unfold move. destruct (ws j !! src); [|done].
  cbn [fst ws set_ws]. by rewrite lookup_insert_ne, lookup_delete_ne.
Qed.

Lemma untouched_communicate topmon name :
  keeps_other_files topmon → name ∉ engine_outputs →
  untouched name (communicate topmon).
Proof. intros Hkeeps Hout j. by apply Hkeeps. Qed.

(** A runner touches the input file, the restart file, the files of the
    binary and the names it moves them to. *)
Lemma untouched_simulate topmon (template step name : string) :
  keeps_other_files topmon →
  name ∉ engine_outputs → name ∉ artifacts step →
  name ≠ "fort.4" → name ≠ "fort.77" →
  untouched name (simulate topmon template step).
Proof.
  intros Hkeeps Hout Hart H4 H77.
  pose proof Hout as Hout'. unfold engine_outputs in Hout'.
  unfold artifacts in Hart.
  rewrite !not_elem_of_cons in Hart. rewrite !not_elem_of_cons in Hout'.
  destruct Hart as (A1 & A2 & A3 & A4 & A5 & A6 & _).
  destruct Hout' as (O1 & O2 & O3 & O4 & O5 & O6 & _).
  unfold simulate.
  repeat (apply untouched_bind; [|intros _]);
    auto using untouched_copyfile, untouched_move, untouched_communicate.
Qed.

Lemma keeps_doc_rewrite_lines (file_name keyword text : string) :
  keeps_doc (rewrite_lines file_name keyword text).
Proof.
  intros j. unfold rewrite_lines, bind, read_file.
  by destruct (ws j !! file_name).
Qed.

Lemma untouched_rewrite_lines name (file_name keyword text : string) :
  name ≠ file_name → untouched name (rewrite_lines file_name keyword text).
Proof.
  intros Hne j. unfold rewrite_lines, bind, read_file.
  destruct (ws j !! file_name); [|done].
  cbn [fst ws set_ws write_file modify]. by rewrite lookup_insert_ne.
Qed.

Lemma keeps_present_rewrite_lines name (file_name keyword text : string) :
  keeps_present name (rewrite_lines file_name keyword text).
Proof.
  intros j Hj. unfold rewrite_lines, bind, read_file.
  destruct (ws j !! file_name); [|done].
  cbn [fst ws set_ws write_file modify].
  destruct (decide (file_name = name)) as [->|Hne].
  - by rewrite lookup_insert_eq.
  - by rewrite lookup_insert_ne.
Qed.

Section ResolverFrame.

Variable float_repr : float → string.

Lemma keeps_doc_replace_keyword_fort_files :
  keeps_doc (replace_keyword_fort_files float_repr).
Proof.
  unfold replace_keyword_fort_files.
  apply keeps_doc_bind; [done | intros j0].
  apply keeps_doc_for_each. intros name.
  apply keeps_doc_for_each. intros i.
  destruct (resolver_keywords !! i), (variables (sp j0) !! i);
    try done; apply keeps_doc_rewrite_lines.
Qed.

Lemma keeps_present_replace_keyword_fort_files name :
  keeps_present name (replace_keyword_fort_files float_repr).
Proof.
  unfold replace_keyword_fort_files.
  apply keeps_present_bind; [by intros j Hj | intros j0].
  apply keeps_present_for_each. intros file.
  apply keeps_present_for_each. intros i.
  destruct (resolver_keywords !! i), (variables (sp j0) !! i);
    try (by intros j Hj); apply keeps_present_rewrite_lines.
Qed.

(** The resolver writes to the four templates only. *)
Lemma untouched_replace_keyword_fort_files name :
  (∀ file, file ∈ file_names → name ≠ "fort.4." +:+ file) →
  untouched name (replace_keyword_fort_files float_repr).
Proof.
  intros Hname. unfold replace_keyword_fort_files.
  apply untouched_bind; [done | intros j0].
  assert (∀ files, (∀ file, file ∈ files → name ≠ "fort.4." +:+ file) →
            untouched name
              (for_each files (λ file,
                 for_each (seq 0 (length (variables (sp j0)))) (λ i,
                   match resolver_keywords !! i, variables (sp j0) !! i with
                   | Some keyword, Some v =>
                       rewrite_lines ("fort.4." +:+ file) keyword
                         (str float_repr v)
                   | _, _ => raise IndexError
                   end)))) as Hfiles.
  { induction files as [|file files IH]; intros Hfiles; [done|].
    cbn [for_each]. apply untouched_bind; [|intros _; apply IH].
    - apply untouched_for_each. intros i.
      destruct (resolver_keywords !! i), (variables (sp j0) !! i);
        try done.
      apply untouched_rewrite_lines, Hfiles. left.
    - intros f Hf. apply Hfiles. by right. }
  by apply Hfiles.
Qed.

End ResolverFrame.

Lemma workflow_invariant_frame (j j' : Job) :
  doc_prod_replicates_done (doc j') = doc_prod_replicates_done (doc j) →
  doc_num_prod_replicates (doc j') = doc_num_prod_replicates (doc j) →
  (is_Some (ws j !! "fort.4.prod") → is_Some (ws j' !! "fort.4.prod")) →
  (∀ log, log ∈ stage_logs → ws j' !! log = ws j !! log) →
  ws j' !! "run.prod4" = ws j !! "run.prod4" →
  workflow_invariant j → workflow_invariant j'.
Proof.
  intros Hdone Hnum Htemplate Hlogs Hlog [Hp Hc]. split.
  - intros (log & Hin & Hlog'). apply Htemplate, Hp.
    exists log. split; [done |]. by rewrite <- Hlogs.
  - by rewrite Hdone, Hnum, Hlog.
Qed.

Lemma workflow_invariant_template (j j' : Job) :
  doc_prod_replicates_done (doc j') = doc_prod_replicates_done (doc j) →
  doc_num_prod_replicates (doc j') = doc_num_prod_replicates (doc j) →
  is_Some (ws j' !! "fort.4.prod") →
  ws j' !! "run.prod4" = ws j !! "run.prod4" →
  workflow_invariant j → workflow_invariant j'.
Proof.
  intros Hdone Hnum Htemplate Hlog [_ Hc]. split; [by intros _ |].
  by rewrite Hdone, Hnum, Hlog.
Qed.

Lemma holds_log_finished (step : string) (j : Job) :
  holds (log_finished step) j = true → is_Some (ws j !! ("run." +:+ step)).
Proof.
  unfold holds. rewrite log_finished_spec. cbn [snd].
  destruct (ws j !! ("run." +:+ step)); [eauto | discriminate].
Qed.

Lemma holds_has_fort_files (j : Job) :
  holds has_fort_files j = true → is_Some (ws j !! "fort.4.prod").
Proof.
  unfold holds, has_fort_files.
  do 4 rewrite (bind_returns _ _ _ _ _ (isfile_lookup _ j)).
  cbn [ret snd truthy].
  destruct (ws j !! "fort.4.prod"); [eauto |].
  by rewrite andb_false_r.
Qed.

(** A runner is only eligible on a job that has its production template. *)
Lemma eligible_runner_template se (o : operation) (j : Job) :
  o ∈ [Run_melt; Run_cool; Run_equil; Run_prod] →
  eligible se o j = true →
  well_provisioned j →
  is_Some (ws j !! "fort.4.prod").
Proof.
  intros Ho Helig Hp. unfold eligible in Helig.
  apply andb_true_iff in Helig as [Hpre _].
  each_member Ho; cbn [preconditions forallb] in Hpre;
    repeat (apply andb_true_iff in Hpre as [? Hpre]).
  - by apply holds_has_fort_files.
  - apply Hp. exists "run.melt".
    split; [left | by apply (holds_log_finished "melt")].
  - apply Hp. exists "run.cool".
    split; [right; left | by apply (holds_log_finished "cool")].
  - apply Hp. exists "run.equil".
    split; [do 2 right; left | by apply (holds_log_finished "equil")].
Qed.

Lemma simulate_keeps_invariant topmon (template step : string) (j : Job) :
  keeps_other_files topmon →
  "fort.4.prod" ∉ artifacts step → "run.prod4" ∉ artifacts step →
  is_Some (ws j !! "fort.4.prod") →
  workflow_invariant j →
  workflow_invariant (fst (simulate topmon template step j)).
Proof.
  intros Hkeeps Ht Hl Htemplate. apply workflow_invariant_template.
  - by rewrite keeps_doc_simulate.
  - by rewrite keeps_doc_simulate.
  - rewrite untouched_simulate; [done | done | | done | discriminate ..].
    intros H. each_member H.
  - rewrite untouched_simulate; [done | done | | done | discriminate ..].
    intros H. each_member H.
Qed.

Lemma run_prod_keeps_invariant topmon se (j : Job) :
  completes topmon → keeps_other_files topmon → logs_end topmon →
  eligible se Run_prod j = true →
  workflow_invariant j →
  workflow_invariant (fst (run_prod topmon j)).
Proof.
  intros Hall Hkeeps Hlogs Helig [Hp Hc].
  destruct (eligible_runner_template se Run_prod j) as [text Htext];
    [do 3 right; left | done | done |].
  destruct (doc_prod_replicates_done (doc j)) as [a|] eqn:Ha.
  - destruct (doc_num_prod_replicates (doc j)) as [b|] eqn:Hb; [|done].
    destruct Hc as (-> & Hrange & Hfour).
    assert (a ≠ 4%Z) as Hne.
    { intros ->. destruct (Hfour eq_refl) as (content & Hlog & Hmark).
      unfold eligible in Helig. cbn [postconditions forallb] in Helig.
      rewrite holds_prod_finished, holds_all_prod_replicates_done in Helig.
      unfold run_log, step_name in Helig. rewrite Ha, Hb in Helig.
      change ("run." +:+ "prod" +:+ str_int 4) with "run.prod4" in Helig.
      rewrite Hlog, Hmark in Helig. cbn in Helig.
      by rewrite andb_false_r in Helig. }
    destruct (run_prod_completes topmon a text j Hall Ha Htext)
      as (j' & Hrun & Hdoc & _ & Hlog & Hrest).
    rewrite Hrun. cbn [fst]. split.
    + intros _.
      rewrite Hrest, Hkeeps, lookup_insert_ne; [eauto | discriminate | ..];
        try discriminate; intros H; unfold artifacts in H; each_member H.
    + rewrite Hdoc. cbn. rewrite Hb.
      split; [done | split; [lia |]].
      intros Hfourth. assert (a = 3%Z) as -> by lia.
      change ("run." +:+ "prod" +:+ str_int (3 + 1)) with "run.prod4" in Hlog.
      destruct (Hall (<["fort.4" := text]> (ws j)) "run1a.dat") as [content Hc];
        [do 2 right; left |].
      exists content. split; [by rewrite Hlog | by eapply Hlogs].
  - destruct (doc_num_prod_replicates (doc j)) as [b|] eqn:Hb; [done|].
    assert (run_prod topmon j
            = (j, Raises (AttributeError "JSONAttrDict" "prod_replicates_done")))
      as ->.
    { unfold run_prod, bind at 1, doc_attr at 1. by rewrite Ha. }
    cbn [fst]. split; [done |]. by rewrite Ha, Hb.
Qed.

Lemma step_keeps_invariant topmon float_repr se (j j' : Job) :
  completes topmon → keeps_other_files topmon → logs_end topmon →
  step topmon float_repr se j j' →
  workflow_invariant j → workflow_invariant j'.
Proof.
  intros Hall Hkeeps Hlogs Hstep Hinv.
  destruct Hstep as [o j Helig | j | name content j Hname].
  - destruct o; cbn [body].
    + revert Hinv. by apply workflow_invariant_frame.
    + destruct Hinv as [Hp _]. split; [exact Hp |]. cbn.
      repeat split; lia.
    + revert Hinv. apply workflow_invariant_frame.
      * by rewrite keeps_doc_replace_keyword_fort_files.
      * by rewrite keeps_doc_replace_keyword_fort_files.
      * apply keeps_present_replace_keyword_fort_files.
      * intros log Hlog. apply untouched_replace_keyword_fort_files.
        intros file Hf. each_member Hlog; each_member Hf; discriminate.
      * apply untouched_replace_keyword_fort_files.
        intros file Hf. each_member Hf; discriminate.
    + apply simulate_keeps_invariant; [done | .. | done];
        [intros H; each_member H ..|].
      apply (eligible_runner_template se Run_melt); [left | done |].
      by destruct Hinv.
    + apply simulate_keeps_invariant; [done | .. | done];
        [intros H; each_member H ..|].
      apply (eligible_runner_template se Run_cool); [right; left | done |].
      by destruct Hinv.
    + apply simulate_keeps_invariant; [done | .. | done];
        [intros H; each_member H ..|].
      apply (eligible_runner_template se Run_equil);
        [do 2 right; left | done |].
      by destruct Hinv.
    + by eapply run_prod_keeps_invariant.
  - revert Hinv. rewrite files_ready_eval.
    by apply workflow_invariant_frame.
  - assert (∀ other, ¬ provided other → ws (set_ws (insert name content) j) !! other
                                        = ws j !! other) as Hother.
    { intros other Hno. cbn [ws set_ws]. apply lookup_insert_ne.
      by intros ->. }
    revert Hinv. apply workflow_invariant_frame; [done | done | ..].
    + intros Ht. cbn [ws set_ws].
      destruct (decide (name = "fort.4.prod")) as [->|Hne];
        [by rewrite lookup_insert_eq | by rewrite lookup_insert_ne].
    + intros log Hlog. apply Hother. intros [Hp | Hin];
        each_member Hlog; try discriminate; each_member Hin.
    + apply Hother. intros [Hp | Hin]; [discriminate | each_member Hin].
Qed.

Lemma reachable_invariant topmon float_repr se (j0 j : Job) :
  completes topmon → keeps_other_files topmon → logs_end topmon →
  well_provisioned j0 →
  reachable topmon float_repr se j0 j →
  workflow_invariant j.
Proof.
  intros Hall Hkeeps Hlogs Htemplate [Hdoc Hsteps].
  assert (workflow_invariant j0) as Hinit
    by (split; [done | by rewrite Hdoc]).
  clear Hdoc Htemplate. induction Hsteps as [j | j j1 j2 Hstep _ IH]; [done|].
  apply IH. by eapply step_keeps_invariant.
Qed.

(** C5, as the code has it. Take a binary that completes every run: it
    leaves its six output files, its log holds the marker, and it touches
    no other file. Then every job reached from a well-provisioned job with
    an empty document, by operations run while their preconditions hold and
    their postconditions do not all hold, has
    [prod_replicates_done <= num_prod_replicates]; and when
    [all_prod_replicates_done] holds of such a job the two are equal. *)
Theorem counters_bounded_when_runs_complete topmon float_repr se (j0 j : Job) :
  completes topmon → keeps_other_files topmon → logs_end topmon →
  well_provisioned j0 →
  reachable topmon float_repr se j0 j →
  counters_bounded j ∧
  (holds all_prod_replicates_done j = true →
   doc_prod_replicates_done (doc j) = doc_num_prod_replicates (doc j)).
Proof.
  intros Hall Hkeeps Hlogs Htemplate Hreach.
  destruct (reachable_invariant _ _ _ _ _ Hall Hkeeps Hlogs Htemplate Hreach)
    as [_ Hc].
  split.
  - intros a b Ha Hb. rewrite Ha, Hb in Hc. lia.
  - rewrite holds_all_prod_replicates_done.
    destruct (doc_prod_replicates_done (doc j)) as [a|]; [|done].
    destruct (doc_num_prod_replicates (doc j)) as [b|]; [|done].
    intros Hge%bool_decide_eq_true. f_equal. lia.
Qed.

Lemma counters_bounded_when_runs_complete_witness :
  ∃ j,
    reachable Examples.topmon_completes Examples.repr3 (λ _, true)
      Examples.provisioned_job j ∧
    doc_prod_replicates_done (doc j) = Some 4%Z ∧
    eligible (λ _, true) Run_prod j = false ∧
    counters_bounded j.
Proof.
  assert (∃ j,
            schedule Examples.topmon_completes Examples.repr3 (λ _, true)
              [Set_equil_replicates; Set_prod_replicates;
               Replace_keyword_fort_files; Run_melt; Run_cool; Run_equil;
               Run_prod; Run_prod; Run_prod; Run_prod]
              Examples.provisioned_job = Some j ∧
            doc_prod_replicates_done (doc j) = Some 4%Z ∧
            eligible (λ _, true) Run_prod j = false)
    as (j & E & H4 & Hdone).
  { eexists. split; [vm_compute; reflexivity |].
    split; [reflexivity | vm_compute; reflexivity]. }
  assert (reachable Examples.topmon_completes Examples.repr3 (λ _, true)
            Examples.provisioned_job j) as Hreach
    by (split; [reflexivity | exact (schedule_steps _ _ _ _ _ _ E)]).
  exists j. split; [exact Hreach |]. split; [exact H4 |].
  split; [exact Hdone |].
  apply (counters_bounded_when_runs_complete Examples.topmon_completes
           Examples.repr3 (λ _, true) Examples.provisioned_job j
           topmon_completes_completes topmon_completes_keeps
           topmon_completes_logs_end).
  - intros _. exists ("production " +:+ Examples.template).
    vm_compute. reflexivity.
  - exact Hreach.
Defined.
